(** * Orientation reset and mounting calibration of SlimeVR trackers

    Shallow embedding of the angle helpers of [MountingResetTests]
    (posRad, anglesApproxEqual, in binary32) and of the per-tracker calibration
    engine that the tests drive through [TrackerResetsHandler]. *)

From Stdlib Require Import ZArith Bool Reals Lra Lia Ascii List.
From Corelib Require Import SpecFloat.

Open Scope Z_scope.

(** ** Kotlin [Float]: IEEE-754 binary32 *)

Module F32.

Definition prec : Z := 24.
Definition emax : Z := 128.

Definition float := spec_float.

Definition fsub (a b : float) : float := SFsub prec emax a b.
Definition fadd (a b : float) : float := SFadd prec emax a b.
Definition fmul (a b : float) : float := SFmul prec emax a b.
Definition fdiv (a b : float) : float := SFdiv prec emax a b.
Definition fabs (a : float) : float := SFabs a.
Definition flt (a b : float) : bool := SFltb a b.

(** A small integer as a float (exact). *)
Definition of_int (n : Z) : float := binary_normalize prec emax n 0 false.

(** A decimal literal [n / d] such as [0.001f]: the float nearest to the
    rational value, which is what the compiler stores. *)
Definition lit (n d : Z) : float := fdiv (of_int n) (of_int d).

(** [FastMath.PI = (float) Math.PI], bit pattern 0x40490FDB. *)
Definition PI : float := S754_finite false 13176795 (-22).

(** [FastMath.TWO_PI = 2.0f * PI]. *)
Definition TWO_PI : float := fmul (of_int 2) PI.

(** Modelled from the spec: [FastMath.isApproxEqual] and its default
    tolerance are not under src/. The spec (sections 3 and 8): two angles are
    equal when they "differ by less than a small angular tolerance",
    the tolerance being 1e-3 rad. *)
Definition ZERO_TOLERANCE : float := lit 1 1000.

Definition isApproxEqual (a b : float) : bool :=
  flt (fabs (fsub a b)) ZERO_TOLERANCE.

(** Kotlin's [%] on [Float] (the JVM's [frem]): the remainder of the
    division truncated toward zero, which is exact, with the sign of the
    dividend; NaN when the dividend is infinite or the divisor zero, the
    dividend itself when it is zero or the divisor infinite. *)
Definition frem (x y : float) : float :=
  match x, y with
  | S754_nan, _ | _, S754_nan => S754_nan
  | S754_infinity _, _ => S754_nan
  | _, S754_zero _ => S754_nan
  | S754_zero _, _ => x
  | S754_finite _ _ _, S754_infinity _ => x
  | S754_finite sx mx ex, S754_finite _ my ey =>
      let e := Z.min ex ey in
      let r := Z.rem (Zpos mx * 2 ^ (ex - e)) (Zpos my * 2 ^ (ey - e)) in
      if Z.eqb r 0 then S754_zero sx
      else binary_normalize prec emax (if sx then - r else r) e sx
  end.

(** [posRad] (MountingResetTests.kt, lines 164-168); [abs] is
    [Math.abs], which clears the sign. *)
Definition posRad (rot : float) : float :=
  let redRot := frem rot TWO_PI in
  fabs (if flt rot (S754_zero false) then fadd TWO_PI redRot else redRot).

(** [anglesApproxEqual] (MountingResetTests.kt, lines 182-184). *)
Definition anglesApproxEqual (a b : float) : bool :=
  isApproxEqual a b ||
  isApproxEqual (fsub a TWO_PI) b ||
  isApproxEqual a (fsub b TWO_PI).

End F32.

(** The inputs of claim C5, as the test would compute them in [Float]. *)
Definition C5_small : F32.float := F32.lit 1 1000.
Definition C5_near_two_pi : F32.float := F32.fsub F32.TWO_PI (F32.lit 1 1000).
Definition C5_half : F32.float := F32.lit 5 10000.
Definition C5_two_pi_minus_half : F32.float := F32.fsub F32.TWO_PI (F32.lit 5 10000).

(** ** Calibration engine

    Modelled from the spec: [Tracker] and [TrackerResetsHandler]
    (resetFull, resetYaw, resetMounting, the corrected rotation) are not
    under src/; only the tests that drive them are. The model follows the
    spec's sections 3, 4, 5 and 7: a record of three corrections and two
    flags per tracker, the correction formula of 4.2, resets that read the
    last raw sample and are rejected, state untouched, when there is none
    or when the reference is not a unit quaternion. *)

Module Engine.

Open Scope R_scope.

Record Quaternion := mkQuat { qw : R; qx : R; qy : R; qz : R }.

Definition IDENTITY : Quaternion := mkQuat 1 0 0 0.

(** Hamilton product. *)
Definition qmul (p q : Quaternion) : Quaternion :=
  mkQuat
    (qw p * qw q - qx p * qx q - qy p * qy q - qz p * qz q)
    (qw p * qx q + qx p * qw q + qy p * qz q - qz p * qy q)
    (qw p * qy q - qx p * qz q + qy p * qw q + qz p * qx q)
    (qw p * qz q + qx p * qy q - qy p * qx q + qz p * qw q).

Definition norm2 (q : Quaternion) : R :=
  qw q * qw q + qx q * qx q + qy q * qy q + qz q * qz q.

(** Inverse: conjugate divided by the squared norm. *)
Definition inv (q : Quaternion) : Quaternion :=
  let n := norm2 q in
  mkQuat (qw q / n) (- qx q / n) (- qy q / n) (- qz q / n).

Record CalibrationState := mkCalibration {
  fullResetFix : Quaternion;
  yawResetFix : Quaternion;
  mountingFix : Quaternion;
  needsReset : bool;
  needsMounting : bool
}.

Record Tracker := mkTracker {
  rawRotation : option Quaternion;
  calibration : CalibrationState
}.

Inductive ResetError := NoRawOrientationAvailable | InvalidReferenceOrientation.

Inductive Outcome := Success | Failure (e : ResetError).

(** A reset is a state-passing operation on the tracker. *)
Definition Op := Tracker -> Outcome * Tracker.

Definition newTracker : Tracker :=
  mkTracker None (mkCalibration IDENTITY IDENTITY IDENTITY true true).

Definition setRotation (q : Quaternion) (t : Tracker) : Tracker :=
  mkTracker (Some q) (calibration t).

(** Correction application (4.2):
    [yawResetFix * fullResetFix * R * mountingFix]. *)
Definition corrected (c : CalibrationState) (raw : Quaternion) : Quaternion :=
  qmul (qmul (qmul (yawResetFix c) (fullResetFix c)) raw) (mountingFix c).

Section Resets.

(** The unit-norm tolerance of the reference check (its value is not
    given by the spec). *)
Variable unitTolerance : R.

(** The spec fixes what resetYaw and resetMounting write and keep, not the
    formula of the new correction: it is a parameter. [yawFixFor] gets the
    reference and the pose [fullResetFix * R * mountingFix] that the new
    yaw correction is applied to; [mountFixFor] gets the reference, the raw
    sample and the current corrections. *)
Variable yawFixFor : Quaternion -> Quaternion -> Quaternion.
Variable mountFixFor : Quaternion -> Quaternion -> CalibrationState -> Quaternion.

Definition validReference (ref : Quaternion) : bool :=
  if Rle_dec (Rabs (norm2 ref - 1)) unitTolerance then true else false.

(** Shared shape of the three resets: read the raw sample, check the
    reference, then replace the calibration state at once. *)
Definition withRaw (ref : Quaternion)
    (update : Quaternion -> CalibrationState -> CalibrationState) : Op :=
  fun t =>
    match rawRotation t with
    | None => (Failure NoRawOrientationAvailable, t)
    | Some raw =>
        if validReference ref
        then (Success, mkTracker (rawRotation t) (update raw (calibration t)))
        else (Failure InvalidReferenceOrientation, t)
    end.

(** resetFull (4.3): the new [fullResetFix] maps [R * mountingFix] onto the
    reference; [yawResetFix] back to identity; [mountingFix] kept;
    [needsReset] cleared. *)
Definition resetFull (ref : Quaternion) : Op :=
  withRaw ref (fun raw c =>
    mkCalibration
      (qmul ref (inv (qmul raw (mountingFix c))))
      IDENTITY
      (mountingFix c)
      false
      (needsMounting c)).

(** resetYaw (4.4): only [yawResetFix] is recomputed. *)
Definition resetYaw (ref : Quaternion) : Op :=
  withRaw ref (fun raw c =>
    mkCalibration
      (fullResetFix c)
      (yawFixFor ref (qmul (qmul (fullResetFix c) raw) (mountingFix c)))
      (mountingFix c)
      (needsReset c)
      (needsMounting c)).

(** resetMounting (4.5): only [mountingFix] is recomputed; [needsMounting]
    cleared. *)
Definition resetMounting (ref : Quaternion) : Op :=
  withRaw ref (fun raw c =>
    mkCalibration
      (fullResetFix c)
      (yawResetFix c)
      (mountFixFor ref raw c)
      (needsReset c)
      false).

End Resets.

End Engine.

(** ** The serial console page (Serial.tsx)

    A JavaScript string is modelled as its list of UTF-16 code units; the
    model covers strings whose code units are below 256 ([ascii]). *)

Module SerialPage.

Import ListNotations.
Open Scope list_scope.

Definition jsstring := list ascii.

(** The characters [String.prototype.trim] removes, among code units below
    256: TAB, LF, VT, FF, CR, SPACE and NO-BREAK SPACE. *)
Definition isJsWhitespace (c : ascii) : bool :=
  let n := nat_of_ascii c in
  (Nat.eqb n 9 || Nat.eqb n 10 || Nat.eqb n 11 || Nat.eqb n 12 ||
   Nat.eqb n 13 || Nat.eqb n 32 || Nat.eqb n 160)%bool.

Fixpoint trimStart (s : jsstring) : jsstring :=
  match s with
  | [] => []
  | c :: r => if isJsWhitespace c then trimStart r else s
  end.

Definition trimEnd (s : jsstring) : jsstring := rev (trimStart (rev s)).

Definition trim (s : jsstring) : jsstring := trimEnd (trimStart s).

(** The RPC packets the page sends. *)
Inductive Packet :=
  | CloseSerialRequest
  | OpenSerialRequest (auto : bool) (port : jsstring)
  | SerialDevicesRequest
  | SerialTrackerRebootRequest
  | SerialTrackerFactoryResetRequest
  | SerialTrackerGetInfoRequest
  | SerialTrackerGetWifiScanRequest
  | SerialTrackerCommandRequest (command : jsstring).

(** [sendCommand] (lines 195-200). *)
Definition sendCommand (command : jsstring) : list Packet :=
  [SerialTrackerCommandRequest command].

(** [onSubmitInput] (lines 95-104): the packets sent and whether the input
    form is reset. *)
Definition onSubmitInput (command : jsstring) : list Packet * bool :=
  let command := trim command in
  match command with
  | [] => ([], false)
  | _ => (sendCommand command, true)
  end.

(** The part of the page state the serial updates touch. *)
Record ConsoleState := mkConsole {
  isSerialOpen : bool;
  consoleContent : jsstring
}.

Record SerialUpdateResponse := mkSerialUpdate {
  closed : bool;
  log : option jsstring
}.

(** The [SerialUpdateResponse] handler (lines 120-133); [consoleMounted]
    stands for [consoleRef.current] being set. A string is truthy when it
    is not empty. *)
Definition onSerialUpdate (consoleMounted : bool) (st : ConsoleState)
    (data : SerialUpdateResponse) : ConsoleState :=
  mkConsole
    (if closed data then false else true)
    (match log data with
     | Some ((_ :: _) as l) =>
         if consoleMounted then consoleContent st ++ l else consoleContent st
     | _ => consoleContent st
     end).

Definition onSerialUpdates (consoleMounted : bool) (st : ConsoleState)
    (msgs : list SerialUpdateResponse) : ConsoleState :=
  fold_left (onSerialUpdate consoleMounted) msgs st.

Definition logText (data : SerialUpdateResponse) : jsstring :=
  match log data with Some l => l | None => [] end.

End SerialPage.

(** ** The tracker settings page (part_000, [TrackerSettingsPage]) *)

Module TrackerSettings.

Import ListNotations.
Import SerialPage.

Section Page.

(** The mounting rotation and its wire form are values of the maths
    library; their conversion is a parameter. *)
Variable Rotation QuatT : Type.
Variable MountingOrientationDegreesToQuatT : Rotation -> QuatT.

(** [BodyPart.NONE] is the enum value 0. *)
Definition BodyPart_NONE : Z := 0.

Record TrackerInfo := mkInfo {
  customName : option jsstring;
  infoAllowDriftCompensation : bool;
  bodyPart : Z
}.

Record TrackerView := mkView {
  trackerId : Z;
  info : option TrackerInfo
}.

(** A field left unset keeps the [AssignTrackerRequestT] default: [null]
    for the name and orientation, [None] for the drift flag. *)
Record AssignTrackerRequest := mkAssign {
  reqBodyPosition : Z;
  reqMountingOrientation : option QuatT;
  reqDisplayName : option jsstring;
  reqTrackerId : Z;
  reqAllowDriftCompensation : option bool
}.

Definition optionEqb {A} (eqb : A -> A -> bool) (a b : option A) : bool :=
  match a, b with
  | None, None => true
  | Some x, Some y => eqb x y
  | _, _ => false
  end.

Definition stringEqb (a b : jsstring) : bool :=
  if list_eq_dec ascii_dec a b then true else false.

(** [tracker?.tracker.info?.bodyPart || BodyPart.NONE]. *)
Definition bodyPartOr (i : option TrackerInfo) : Z :=
  match i with
  | Some inf => if Z.eqb (bodyPart inf) 0 then BodyPart_NONE else bodyPart inf
  | None => BodyPart_NONE
  end.

(** [updateTrackerSettings] (lines 106-124). [trackerName] and
    [allowDriftCompensation] are the form values ([null] is [None]); the
    loose [==] makes [null] and an absent [info] (undefined) equal. *)
Definition updateTrackerSettings (tracker : option TrackerView)
    (trackerName : option jsstring) (allowDriftCompensation : option bool)
    (currRotation : option Rotation) : list AssignTrackerRequest :=
  match tracker with
  | None => []
  | Some t =>
      match allowDriftCompensation with
      | None => []
      | Some drift =>
          let storedName :=
            match info t with Some i => customName i | None => None end in
          let sameDrift :=
            match info t with
            | Some i => Bool.eqb drift (infoAllowDriftCompensation i)
            | None => false
            end in
          if (optionEqb stringEqb trackerName storedName && sameDrift)%bool
          then []
          else [mkAssign (bodyPartOr (info t))
                  (option_map MountingOrientationDegreesToQuatT currRotation)
                  trackerName (trackerId t) (Some drift)]
      end
  end.

(** [onDirectionSelected] (lines 74-88): the requests sent. *)
Definition onDirectionSelected (tracker : option TrackerView)
    (allowDriftCompensation : option bool)
    (mountingOrientationDegrees : Rotation) : list AssignTrackerRequest :=
  match tracker with
  | None => []
  | Some t =>
      [mkAssign (bodyPartOr (info t))
         (Some (MountingOrientationDegreesToQuatT mountingOrientationDegrees))
         None (trackerId t) allowDriftCompensation]
  end.

(** [onRoleSelected] (lines 90-100): the requests sent. *)
Definition onRoleSelected (tracker : option TrackerView)
    (allowDriftCompensation : option bool) (role : Z) : list AssignTrackerRequest :=
  match tracker with
  | None => []
  | Some t => [mkAssign role None None (trackerId t) allowDriftCompensation]
  end.

End Page.

(** [[a-zA-Z\d]]: an ASCII letter or digit. *)
Definition isAlnum (c : ascii) : bool :=
  let n := nat_of_ascii c in
  ((Nat.leb 48 n && Nat.leb n 57) || (Nat.leb 65 n && Nat.leb n 90) ||
   (Nat.leb 97 n && Nat.leb n 122))%bool.

(** [(?:[a-zA-Z\d]{2}:){n}[a-zA-Z\d]{2}] matched at the start of [s]. *)
Fixpoint macGroupsAt (n : nat) (s : jsstring) : bool :=
  match n, s with
  | O, a :: b :: _ => (isAlnum a && isAlnum b)%bool
  | S n', a :: b :: c :: r =>
      (isAlnum a && isAlnum b && Ascii.eqb c ":"%char && macGroupsAt n' r)%bool
  | _, _ => false
  end.

(** [RegExp.prototype.test] of the unanchored pattern
    [/(?:[a-zA-Z\d]{2}:){5}[a-zA-Z\d]{2}/]: a match at some position. *)
Fixpoint macTest (s : jsstring) : bool :=
  (macGroupsAt 5 s ||
   match s with [] => false | _ :: r => macTest r end)%bool.

(** [macAddress] (lines 149-159): the hardware identifier when it
    contains a MAC-shaped run, [null] otherwise ([None] for a missing
    identifier, tested as ['']). *)
Definition macAddress (hardwareIdentifier : option jsstring) : option jsstring :=
  if macTest (match hardwareIdentifier with Some s => s | None => [] end)
  then hardwareIdentifier
  else None.

End TrackerSettings.

(** * Properties *)

(** Claim C6, counterexample: in [Float], [posRad] of the small negative
    angle [-1e-7f] (and of [-2e-7f]) is [FastMath.TWO_PI] itself: the
    remainder is the input, and [TWO_PI + redRot] rounds back to
    [TWO_PI]. The result is not below [TWO_PI], so it is not in
    [[0, 2 pi)]. *)
Lemma C6_posRad_float_counterexample :
  F32.posRad (F32.lit (-1) 10000000) = F32.TWO_PI /\
  F32.posRad (F32.lit (-2) 10000000) = F32.TWO_PI /\
  F32.flt (F32.lit (-1) 10000000) (S754_zero false) = true /\
  ~ (F32.flt (F32.posRad (F32.lit (-1) 10000000)) F32.TWO_PI = true).
Proof. vm_compute. split; [reflexivity | split; [reflexivity | split; [reflexivity | discriminate]]]. Qed.

(** Rounding acts on the magnitude; the sign only labels the result. *)
Lemma abs_binary_round_sign (s : bool) (m : positive) (e : Z) :
  SFabs (binary_round F32.prec F32.emax s m e) =
  SFabs (binary_round F32.prec F32.emax false m e).
Proof.
  unfold binary_round, binary_round_aux.
  destruct (shl_align _ _ _) as [mz ez].
  destruct (shr_fexp _ _ _ _ _) as [mrs' e'].
  destruct (shr_fexp _ _ _ _ _) as [mrs'' e''].
  destruct (shr_m mrs'') as [|m''|m'']; try reflexivity.
  destruct (Z.leb e'' (F32.emax - F32.prec)); reflexivity.
Qed.

Lemma abs_normalize_opp (z e : Z) :
  SFabs (binary_normalize F32.prec F32.emax (- z) e false) =
  SFabs (binary_normalize F32.prec F32.emax z e false).
Proof.
  destruct z as [|p|p]; simpl; try reflexivity.
  - apply abs_binary_round_sign.
  - symmetry. apply abs_binary_round_sign.
Qed.

(** [|a - b| = |b - a|] in binary32, for every operand, NaN and
    infinities included. *)
Lemma fabs_fsub_comm (a b : F32.float) :
  F32.fabs (F32.fsub a b) = F32.fabs (F32.fsub b a).
Proof.
  unfold F32.fabs, F32.fsub.
  destruct a as [sa|sa| |sa ma ea]; destruct b as [sb|sb| |sb mb eb];
    try (destruct sa); try (destruct sb); try reflexivity.
  all: cbv beta iota delta [SFsub]; rewrite Z.min_comm;
       rewrite <- abs_normalize_opp, Z.opp_sub_distr, Z.add_comm, Z.add_opp_r;
       reflexivity.
Qed.

Lemma isApproxEqual_sym (a b : F32.float) :
  F32.isApproxEqual a b = F32.isApproxEqual b a.
Proof. unfold F32.isApproxEqual. rewrite fabs_fsub_comm. reflexivity. Qed.

(** Claim C10: [anglesApproxEqual] is symmetric. *)
Theorem C10_anglesApproxEqual_sym (a b : F32.float) :
  F32.anglesApproxEqual a b = F32.anglesApproxEqual b a.
Proof.
  unfold F32.anglesApproxEqual.
  rewrite (isApproxEqual_sym a b),
          (isApproxEqual_sym (F32.fsub a F32.TWO_PI) b),
          (isApproxEqual_sym a (F32.fsub b F32.TWO_PI)).
  destruct (F32.isApproxEqual b a), (F32.isApproxEqual b (F32.fsub a F32.TWO_PI)),
           (F32.isApproxEqual (F32.fsub b F32.TWO_PI) a); reflexivity.
Qed.

(** Claim C5, counterexample: [2 pi - 0.0005] and [0.0005] are not judged
    approximately equal: their wrapped distance is about 0.001 (0.0010002
    in binary32), which is not below the 1e-3 tolerance. *)
Lemma C5_wraparound_counterexample :
  ~ (F32.anglesApproxEqual C5_small C5_near_two_pi = false /\
     F32.anglesApproxEqual C5_two_pi_minus_half C5_half = true).
Proof. vm_compute. intros [_ H]. discriminate H. Qed.

(** Claim C5 (amended): in [Float], [0.001] and [2 pi - 0.001] are judged
    unequal (wrapped distance about 0.002); [2 pi - 0.0005] and [0.0005]
    are judged unequal as well, their wrapped distance computed in [Float]
    being [0.0010002], which is not below the tolerance [0.001f]; the pair
    [2 pi - 0.0004] and [0.0004] is judged equal. *)
Theorem C5_wraparound_amended :
  F32.anglesApproxEqual C5_small C5_near_two_pi = false /\
  F32.anglesApproxEqual C5_two_pi_minus_half C5_half = false /\
  F32.fabs (F32.fsub (F32.fsub C5_two_pi_minus_half F32.TWO_PI) C5_half) =
    S754_finite false 8591672 (-33) /\
  F32.flt F32.ZERO_TOLERANCE (S754_finite false 8591672 (-33)) = true /\
  F32.anglesApproxEqual (F32.fsub F32.TWO_PI (F32.lit 4 10000)) (F32.lit 4 10000)
    = true.
Proof. vm_compute. repeat split. Qed.

Section EngineProps.

Import Engine.
Open Scope R_scope.

Variable unitTolerance : R.
Variable yawFixFor : Quaternion -> Quaternion -> Quaternion.
Variable mountFixFor : Quaternion -> Quaternion -> CalibrationState -> Quaternion.

Lemma qmul_assoc (p q r : Quaternion) :
  qmul (qmul p q) r = qmul p (qmul q r).
Proof. destruct p, q, r. unfold qmul; simpl. f_equal; ring. Qed.

Lemma qmul_inv_l (q : Quaternion) :
  norm2 q <> 0 -> qmul (inv q) q = IDENTITY.
Proof.
  intros Hn. destruct q as [w x y z].
  unfold norm2 in Hn; simpl in Hn.
  unfold qmul, inv, norm2, IDENTITY; simpl.
  f_equal; field; exact Hn.
Qed.

Lemma qmul_identity_l (q : Quaternion) : qmul IDENTITY q = q.
Proof. destruct q. unfold qmul, IDENTITY; simpl. f_equal; ring. Qed.

Lemma qmul_identity_r (q : Quaternion) : qmul q IDENTITY = q.
Proof. destruct q. unfold qmul, IDENTITY; simpl. f_equal; ring. Qed.

(** After a successful full reset the corrected reading of the same raw
    sample is the reference itself (its yaw in particular). *)
Lemma resetFull_corrected (ref : Quaternion) (t t' : Tracker) (raw : Quaternion) :
  rawRotation t = Some raw ->
  norm2 (qmul raw (mountingFix (calibration t))) <> 0 ->
  resetFull unitTolerance ref t = (Success, t') ->
  corrected (calibration t') raw = ref.
Proof.
  intros Hraw Hn Hres.
  unfold resetFull, withRaw in Hres. rewrite Hraw in Hres.
  destruct (validReference unitTolerance ref); [|discriminate].
  injection Hres as <-. unfold corrected; simpl.
  rewrite qmul_identity_l, !qmul_assoc, qmul_inv_l by exact Hn.
  apply qmul_identity_r.
Qed.

Lemma validReference_IDENTITY : 0 <= unitTolerance ->
  validReference unitTolerance IDENTITY = true.
Proof.
  intros Htol. unfold validReference, norm2, IDENTITY; simpl.
  destruct (Rle_dec _ _) as [|Hn]; [reflexivity|].
  exfalso. apply Hn.
  replace (1 * 1 + 0 * 0 + 0 * 0 + 0 * 0 - 1) with 0 by ring.
  rewrite Rabs_R0. exact Htol.
Qed.

(** Claim C7: a reset requested before any raw sample fails with
    [NoRawOrientationAvailable] and leaves the tracker, calibration state
    included, unchanged; for each of the three resets. *)
Theorem C7_reset_without_raw (ref : Quaternion) (t : Tracker) :
  rawRotation t = None ->
  resetFull unitTolerance ref t = (Failure NoRawOrientationAvailable, t) /\
  resetYaw unitTolerance yawFixFor ref t = (Failure NoRawOrientationAvailable, t) /\
  resetMounting unitTolerance mountFixFor ref t =
    (Failure NoRawOrientationAvailable, t).
Proof.
  intros Hnone.
  unfold resetFull, resetYaw, resetMounting, withRaw.
  rewrite Hnone. repeat split.
Qed.

(** Claim C8: a successful full reset sets [yawResetFix] to identity,
    keeps [mountingFix] and [needsMounting] (and the raw sample), and
    clears [needsReset]; [fullResetFix] is the only other field written. *)
Theorem C8_resetFull_frame (ref : Quaternion) (t : Tracker) :
  fst (resetFull unitTolerance ref t) = Success ->
  let t' := snd (resetFull unitTolerance ref t) in
  yawResetFix (calibration t') = IDENTITY /\
  mountingFix (calibration t') = mountingFix (calibration t) /\
  needsReset (calibration t') = false /\
  needsMounting (calibration t') = needsMounting (calibration t) /\
  rawRotation t' = rawRotation t.
Proof.
  cbv beta zeta delta [resetFull withRaw].
  destruct (rawRotation t) as [raw|] eqn:Hraw; [|discriminate].
  destruct (validReference unitTolerance ref); [|discriminate].
  intros _. simpl. repeat split.
Qed.

(** Claim C9: a second full reset with the same reference and the same raw
    sample leaves [fullResetFix] (indeed the whole tracker) unchanged. *)
Theorem C9_resetFull_idempotent (ref : Quaternion) (t : Tracker) :
  let t1 := snd (resetFull unitTolerance ref t) in
  let t2 := snd (resetFull unitTolerance ref t1) in
  fullResetFix (calibration t2) = fullResetFix (calibration t1) /\ t2 = t1.
Proof.
  cbv beta zeta delta [resetFull withRaw].
  destruct (rawRotation t) as [raw|] eqn:Hraw.
  - destruct (validReference unitTolerance ref) eqn:Hv; simpl.
    + auto.
    + rewrite Hraw. auto.
  - simpl. rewrite Hraw. auto.
Qed.

End EngineProps.

Lemma C7_reset_without_raw_witness :
  Engine.rawRotation Engine.newTracker = None /\
  Engine.resetFull (1 / 1000) Engine.IDENTITY Engine.newTracker =
    (Engine.Failure Engine.NoRawOrientationAvailable, Engine.newTracker) /\
  Engine.resetYaw (1 / 1000) (fun ref _ => ref) Engine.IDENTITY Engine.newTracker =
    (Engine.Failure Engine.NoRawOrientationAvailable, Engine.newTracker) /\
  Engine.resetMounting (1 / 1000) (fun ref _ _ => ref) Engine.IDENTITY
    Engine.newTracker =
    (Engine.Failure Engine.NoRawOrientationAvailable, Engine.newTracker).
Proof.
  split; [reflexivity|].
  apply (C7_reset_without_raw (1 / 1000) (fun ref _ => ref) (fun ref _ _ => ref)
           Engine.IDENTITY Engine.newTracker).
  reflexivity.
Defined.

Lemma C8_resetFull_frame_witness :
  let t := Engine.mkTracker (Some (Engine.mkQuat 0 0 1 0))
             (Engine.mkCalibration (Engine.mkQuat 0 1 0 0) (Engine.mkQuat 0 0 1 0)
                (Engine.mkQuat 0 0 0 1) true false) in
  Engine.yawResetFix (Engine.calibration t) <> Engine.IDENTITY /\
  fst (Engine.resetFull (1 / 1000) (Engine.mkQuat 0 1 0 0) t) = Engine.Success /\
  let t' := snd (Engine.resetFull (1 / 1000) (Engine.mkQuat 0 1 0 0) t) in
  Engine.yawResetFix (Engine.calibration t') = Engine.IDENTITY /\
  Engine.mountingFix (Engine.calibration t') =
    Engine.mountingFix (Engine.calibration t) /\
  Engine.needsReset (Engine.calibration t') = false /\
  Engine.needsMounting (Engine.calibration t') =
    Engine.needsMounting (Engine.calibration t) /\
  Engine.rawRotation t' = Engine.rawRotation t.
Proof.
  intros t.
  split.
  { simpl. intros E. injection E as E. lra. }
  assert (H : fst (Engine.resetFull (1 / 1000) (Engine.mkQuat 0 1 0 0) t) = Engine.Success).
  { unfold Engine.resetFull, Engine.withRaw, Engine.validReference, Engine.norm2. simpl.
    destruct (Rle_dec _ _) as [_|Hn]; [reflexivity|].
    exfalso. apply Hn.
    replace (0 * 0 + 1 * 1 + 0 * 0 + 0 * 0 - 1)%R with 0%R by ring.
    rewrite Rabs_R0. lra. }
  split; [exact H |
    exact (C8_resetFull_frame (1 / 1000) (Engine.mkQuat 0 1 0 0) t H)].
Defined.

(** * Further properties of the test helpers *)

Lemma fsub_self_finite (s : bool) (m : positive) (e : Z) :
  F32.fsub (S754_finite s m e) (S754_finite s m e) = S754_zero false.
Proof.
  unfold F32.fsub, SFsub. rewrite Z.min_id, Z.sub_diag. reflexivity.
Qed.

(** In [Float], [anglesApproxEqual a a] holds exactly for the finite values
    (zeros included); for NaN and the infinities it is false, and a NaN is
    never judged equal to anything. *)
Theorem anglesApproxEqual_refl_finite (a : F32.float) :
  (F32.anglesApproxEqual a a = true <->
   match a with S754_zero _ | S754_finite _ _ _ => True | _ => False end) /\
  F32.anglesApproxEqual S754_nan a = false.
Proof.
  split.
  - destruct a as [s|s| |s m e].
    + split; [intros _; exact I|]. intros _. destruct s; reflexivity.
    + destruct s; vm_compute; split; [discriminate | contradiction |
                                        discriminate | contradiction].
    + vm_compute. split; [discriminate | contradiction].
    + split; [intros _; exact I|]. intros _.
      unfold F32.anglesApproxEqual, F32.isApproxEqual at 1.
      rewrite fsub_self_finite. reflexivity.
  - unfold F32.anglesApproxEqual, F32.isApproxEqual, F32.fsub.
    destruct a as [s|s| |s m e]; reflexivity.
Qed.

(** * Properties of the serial console page *)

Section SerialProps.

Import ListNotations.
Import SerialPage.
Open Scope list_scope.

Lemma trimStart_spec (s : jsstring) :
  exists p, s = p ++ trimStart s /\ forallb isJsWhitespace p = true /\
    match trimStart s with [] => True | c :: _ => isJsWhitespace c = false end.
Proof.
  induction s as [|c r IH]; simpl.
  - exists []. auto.
  - destruct (isJsWhitespace c) eqn:Hc.
    + destruct IH as [p [Hp [Hw Hf]]].
      exists (c :: p). simpl. rewrite Hc, Hw. rewrite <- Hp. auto.
    + exists []. simpl. auto.
Qed.

Lemma trimEnd_spec (s : jsstring) :
  exists q, s = trimEnd s ++ q /\ forallb isJsWhitespace q = true /\
    match rev (trimEnd s) with [] => True | c :: _ => isJsWhitespace c = false end.
Proof.
  destruct (trimStart_spec (rev s)) as [p [Hp [Hw Hf]]].
  exists (rev p). unfold trimEnd. rewrite rev_involutive.
  split; [| split].
  - rewrite <- rev_app_distr, <- Hp, rev_involutive. reflexivity.
  - rewrite forallb_forall in *. intros x Hx. apply Hw. apply in_rev. exact Hx.
  - exact Hf.
Qed.

Lemma forallb_app_ws (a b : jsstring) :
  forallb isJsWhitespace (a ++ b) =
  (forallb isJsWhitespace a && forallb isJsWhitespace b)%bool.
Proof. apply forallb_app. Qed.

Lemma trim_split (s : jsstring) :
  exists p q, s = p ++ trim s ++ q /\
    forallb isJsWhitespace p = true /\ forallb isJsWhitespace q = true /\
    match trim s with [] => True | c :: _ => isJsWhitespace c = false end /\
    match rev (trim s) with [] => True | c :: _ => isJsWhitespace c = false end.
Proof.
  destruct (trimStart_spec s) as [p [Hp [Hpw Hf]]].
  destruct (trimEnd_spec (trimStart s)) as [q [Hq [Hqw Hl]]].
  exists p, q. unfold trim.
  split; [rewrite <- Hq; exact Hp|].
  split; [exact Hpw|]. split; [exact Hqw|]. split; [|exact Hl].
  destruct (trimEnd (trimStart s)) as [|c r] eqn:He; [exact I|].
  rewrite Hq in Hf. simpl in Hf. exact Hf.
Qed.

(** [trim] cuts a string into whitespace, the trimmed text and whitespace:
    the input is [p ++ trim s ++ q] with [p] and [q] made of JavaScript
    whitespace, and the trimmed text neither starts nor ends with
    whitespace. *)
Theorem trim_spec (s : jsstring) :
  exists p q, s = p ++ trim s ++ q /\
    forallb isJsWhitespace p = true /\ forallb isJsWhitespace q = true /\
    match trim s with [] => True | c :: _ => isJsWhitespace c = false end /\
    match rev (trim s) with [] => True | c :: _ => isJsWhitespace c = false end.
Proof. exact (trim_split s). Qed.

Lemma trimStart_all_ws (s : jsstring) :
  forallb isJsWhitespace s = true -> trimStart s = [].
Proof.
  induction s as [|c r IH]; simpl; [reflexivity|].
  intros H. apply andb_prop in H as [Hc Hr]. rewrite Hc. exact (IH Hr).
Qed.

Lemma trim_nil_iff (s : jsstring) :
  trim s = [] <-> forallb isJsWhitespace s = true.
Proof.
  split.
  - intros Ht. destruct (trim_split s) as [p [q [Hs [Hp [Hq _]]]]].
    rewrite Ht in Hs. simpl in Hs. rewrite Hs, forallb_app_ws, Hp, Hq. reflexivity.
  - intros Hw. unfold trim, trimEnd. rewrite (trimStart_all_ws s Hw).
    reflexivity.
Qed.

(** Submitting a console command: a command made only of whitespace (or
    empty) sends nothing and keeps the input; any other command sends
    exactly one [SerialTrackerCommandRequest] carrying the trimmed,
    non-empty command, and resets the input. *)
Theorem onSubmitInput_spec (command : jsstring) :
  (forallb isJsWhitespace command = true -> onSubmitInput command = ([], false)) /\
  (forallb isJsWhitespace command = false ->
   trim command <> [] /\
   onSubmitInput command = ([SerialTrackerCommandRequest (trim command)], true)).
Proof.
  unfold onSubmitInput. split.
  - intros Hw. apply trim_nil_iff in Hw. rewrite Hw. reflexivity.
  - intros Hw. assert (Hn : trim command <> []).
    { intros Ht. apply trim_nil_iff in Ht. congruence. }
    split; [exact Hn|].
    destruct (trim command) as [|c r]; [congruence | reflexivity].
Qed.

End SerialProps.

Section SerialUpdates.

Import ListNotations.
Import SerialPage.
Open Scope list_scope.

(** Over any sequence of [SerialUpdateResponse]s the console text only
    grows by appending: with the console element mounted it ends as the
    old text followed by every log in arrival order; without it the text
    is untouched. The open flag follows the last message: open unless that
    message says [closed]. *)
Theorem onSerialUpdates_log (st : ConsoleState) (msgs : list SerialUpdateResponse) :
  consoleContent (onSerialUpdates true st msgs) =
    consoleContent st ++ concat (map logText msgs) /\
  consoleContent (onSerialUpdates false st msgs) = consoleContent st /\
  (forall (mounted : bool) (d : SerialUpdateResponse),
     isSerialOpen (onSerialUpdates mounted st (msgs ++ [d])) = negb (closed d)).
Proof.
  split; [| split].
  - unfold onSerialUpdates. revert st.
    induction msgs as [|d r IH]; intros st; simpl.
    + rewrite app_nil_r. reflexivity.
    + rewrite IH. simpl. unfold logText.
      destruct (log d) as [[|c l]|]; simpl; rewrite <- ?app_assoc; reflexivity.
  - unfold onSerialUpdates. revert st.
    induction msgs as [|d r IH]; intros st; simpl; [reflexivity|].
    rewrite IH. simpl. destruct (log d) as [[|c l]|]; reflexivity.
  - intros mounted d. unfold onSerialUpdates.
    rewrite fold_left_app. simpl. destruct (closed d); reflexivity.
Qed.

End SerialUpdates.

Section TrackerSettingsProps.

Import ListNotations.
Import TrackerSettings.
Open Scope list_scope.

Variable Rotation QuatT : Type.
Variable conv : Rotation -> QuatT.

Lemma stringEqb_true (a b : SerialPage.jsstring) : stringEqb a b = true <-> a = b.
Proof.
  unfold stringEqb. destruct (list_eq_dec ascii_dec a b); split; congruence.
Qed.

Lemma optionEqb_string_true (a b : option SerialPage.jsstring) :
  optionEqb stringEqb a b = true <-> a = b.
Proof.
  destruct a as [x|], b as [y|]; simpl; try (split; congruence).
  rewrite stringEqb_true. split; congruence.
Qed.

(** [updateTrackerSettings] sends nothing without a tracker or before the
    drift compensation value is known. Otherwise it sends nothing exactly
    when the tracker has [info] whose custom name and drift compensation
    both equal the form values, and in every other case sends one
    [AssignTrackerRequest] carrying the form's name and drift value, the
    tracker's id, its body part (or [NONE]) and the converted rotation. *)
Theorem updateTrackerSettings_guard :
  (forall name drift rot,
     updateTrackerSettings Rotation QuatT conv None name drift rot = []) /\
  (forall t name rot,
     updateTrackerSettings Rotation QuatT conv (Some t) name None rot = []) /\
  (forall t name drift rot,
     let unchanged := exists i, info t = Some i /\ name = customName i /\
                                infoAllowDriftCompensation i = drift in
     (unchanged /\
      updateTrackerSettings Rotation QuatT conv (Some t) name (Some drift) rot = []) \/
     (~ unchanged /\
      updateTrackerSettings Rotation QuatT conv (Some t) name (Some drift) rot =
        [mkAssign QuatT (bodyPartOr (info t)) (option_map conv rot) name
                  (trackerId t) (Some drift)])).
Proof.
  split; [| split]; [reflexivity | reflexivity |].
  intros t name drift rot unchanged. unfold unchanged.
  unfold updateTrackerSettings.
  destruct (info t) as [i|] eqn:Hi.
  - destruct (optionEqb stringEqb name (customName i)) eqn:Hn;
      destruct (Bool.eqb drift (infoAllowDriftCompensation i)) eqn:Hd; simpl.
    + left. split; [| reflexivity].
      apply optionEqb_string_true in Hn. apply Bool.eqb_prop in Hd.
      exists i. auto.
    + right. split; [| reflexivity].
      intros [j [Hj [_ Hdj]]]. injection Hj as <-. subst drift.
      rewrite Bool.eqb_reflx in Hd. discriminate.
    + right. split; [| reflexivity].
      intros [j [Hj [Hnj _]]]. injection Hj as <-. subst name.
      assert (optionEqb stringEqb (customName i) (customName i) = true)
        by (apply optionEqb_string_true; reflexivity). congruence.
    + right. split; [| reflexivity].
      intros [j [Hj [Hnj _]]]. injection Hj as <-. subst name.
      assert (optionEqb stringEqb (customName i) (customName i) = true)
        by (apply optionEqb_string_true; reflexivity). congruence.
  - rewrite Bool.andb_false_r. right. split; [| reflexivity].
    intros [j [Hj _]]. discriminate.
Qed.

(** Every [AssignTrackerRequest] the page sends, from the settings form,
    the direction menu or the role menu, targets the page's tracker and
    carries the form's drift compensation value as it is known (unset when
    the form has none); nothing is sent without a tracker. The two menus
    never set a display name, and the role menu never sets a mounting
    orientation. *)
Theorem assign_requests_target_tracker (tracker : option TrackerView)
    (name : option SerialPage.jsstring) (drift : option bool)
    (rot : option Rotation) (deg : Rotation) (role : Z) :
  let fromForm := updateTrackerSettings Rotation QuatT conv tracker name drift rot in
  let fromDirection := onDirectionSelected Rotation QuatT conv tracker drift deg in
  let fromRole := onRoleSelected QuatT tracker drift role in
  (tracker = None -> fromForm ++ fromDirection ++ fromRole = []) /\
  (forall r, In r (fromForm ++ fromDirection ++ fromRole) ->
     exists t, tracker = Some t /\ reqTrackerId QuatT r = trackerId t /\
               reqAllowDriftCompensation QuatT r = drift) /\
  (forall r, In r (fromDirection ++ fromRole) -> reqDisplayName QuatT r = None) /\
  (forall r, In r fromRole -> reqMountingOrientation QuatT r = None).
Proof.
  intros fromForm fromDirection fromRole.
  unfold fromForm, fromDirection, fromRole,
    updateTrackerSettings, onDirectionSelected, onRoleSelected.
  destruct tracker as [t|].
  - split; [discriminate|].
    split; [| split].
    + intros r Hr. exists t. split; [reflexivity|].
      destruct drift as [dr|]; simpl in Hr.
      * destruct (_ && _)%bool; simpl in Hr;
          repeat (destruct Hr as [<-|Hr]; [split; reflexivity|]); contradiction.
      * repeat (destruct Hr as [<-|Hr]; [split; reflexivity|]); contradiction.
    + intros r Hr. simpl in Hr.
      repeat (destruct Hr as [<-|Hr]; [reflexivity|]); contradiction.
    + intros r Hr. simpl in Hr.
      repeat (destruct Hr as [<-|Hr]; [reflexivity|]); contradiction.
  - split; [reflexivity|]. simpl. split; [| split]; intros r [].
Qed.

End TrackerSettingsProps.

Section MacProps.

Import ListNotations.
Import TrackerSettings.
Open Scope nat_scope.
Open Scope list_scope.

Lemma macGroupsAt_app (n : nat) (s q : SerialPage.jsstring) :
  macGroupsAt n s = true -> macGroupsAt n (s ++ q) = true.
Proof.
  revert s. induction n as [|n IH]; intros s H.
  - destruct s as [|a [|b r]]; try discriminate. exact H.
  - destruct s as [|a [|b [|c r]]]; try discriminate.
    simpl in H |- *. apply andb_prop in H as [H1 H2].
    rewrite H1. simpl. apply IH. exact H2.
Qed.

Lemma macGroupsAt_length (n : nat) (s : SerialPage.jsstring) :
  macGroupsAt n s = true -> 3 * n + 2 <= length s.
Proof.
  revert s. induction n as [|n IH]; intros s H.
  - destruct s as [|a [|b r]]; try discriminate. simpl. lia.
  - destruct s as [|a [|b [|c r]]]; try discriminate.
    simpl in H. apply andb_prop in H as [_ H2].
    apply IH in H2. simpl. lia.
Qed.

Lemma macGroupsAt_firstn (n : nat) (s : SerialPage.jsstring) :
  macGroupsAt n s = true -> macGroupsAt n (firstn (3 * n + 2) s) = true.
Proof.
  revert s. induction n as [|n IH]; intros s H.
  - destruct s as [|a [|b r]]; try discriminate. exact H.
  - destruct s as [|a [|b [|c r]]]; try discriminate.
    replace (3 * S n + 2) with (S (S (S (3 * n + 2)))) by lia.
    simpl in H |- *. apply andb_prop in H as [H1 H2].
    rewrite H1. simpl. apply IH. exact H2.
Qed.

Lemma macTest_app_l (p s : SerialPage.jsstring) :
  macTest s = true -> macTest (p ++ s) = true.
Proof.
  intros H. induction p as [|c p IH]; [exact H|].
  simpl. rewrite IH. apply Bool.orb_true_r.
Qed.

Lemma macTest_inv (s : SerialPage.jsstring) :
  macTest s = true -> exists p r, s = p ++ r /\ macGroupsAt 5 r = true.
Proof.
  induction s as [|c s IH]; intros H.
  - discriminate.
  - simpl in H. apply Bool.orb_true_iff in H as [H|H].
    + exists [], (c :: s). auto.
    + destruct (IH H) as [p [r [-> Hr]]]. exists (c :: p), r. auto.
Qed.

Lemma macTest_at (s : SerialPage.jsstring) :
  macGroupsAt 5 s = true -> macTest s = true.
Proof.
  intros H. destruct s as [|c r]; [discriminate|].
  simpl. simpl in H. rewrite H. reflexivity.
Qed.

Lemma macTest_window (s : SerialPage.jsstring) :
  macTest s = true <->
  exists p m q, s = p ++ m ++ q /\ length m = 17 /\ macGroupsAt 5 m = true.
Proof.
  split.
  - intros H. destruct (macTest_inv s H) as [p [r [-> Hr]]].
    exists p, (firstn 17 r), (skipn 17 r).
    pose proof (macGroupsAt_length 5 r Hr) as Hl.
    split; [rewrite firstn_skipn; reflexivity|].
    split; [rewrite length_firstn; lia|].
    exact (macGroupsAt_firstn 5 r Hr).
  - intros [p [m [q [-> [_ Hm]]]]].
    apply macTest_app_l, macTest_at, macGroupsAt_app, Hm.
Qed.

(** [/(?:[a-zA-Z\d]{2}:){5}[a-zA-Z\d]{2}/.test(s)] holds exactly when [s]
    contains, at some position, a 17-character run of six two-character
    alphanumeric groups separated by colons; text before and after the
    run does not matter. *)
Theorem macTest_spec (s : SerialPage.jsstring) :
  macTest s = true <->
  exists p m q, s = p ++ m ++ q /\ length m = 17 /\ macGroupsAt 5 m = true.
Proof. exact (macTest_window s). Qed.

(** [macAddress] never alters the hardware identifier: it is either
    [null] or the identifier itself, and it is the identifier only when
    one is present and at least 17 characters long. *)
Theorem macAddress_cases (hw : option SerialPage.jsstring) :
  macAddress hw = None \/
  (macAddress hw = hw /\ exists s, hw = Some s /\ 17 <= length s).
Proof.
  unfold macAddress.
  destruct (macTest (match hw with Some s => s | None => [] end)) eqn:H;
    [right | left; reflexivity].
  split; [reflexivity|].
  destruct hw as [s|]; [| discriminate].
  exists s. split; [reflexivity|].
  apply macTest_window in H as [p [m [q [-> [Hm _]]]]].
  rewrite !length_app. lia.
Qed.

End MacProps.
